(** * Revenue Leak Detective: the agent worker

    A shallow embedding of the two Python modules of the worker,
    [workers/run.py] and [workers/src/agent/run.py], and the properties
    of the greeting transformer, the one-node workflow and the
    command-line entry point.

    Python dictionaries are objects with identity: the store keeps them
    in a list and a reference is an index into it.  Text is a [string];
    a multi-byte character is the run of its UTF-8 bytes, so Python's
    [+] on text is [String.append]. *)

From Stdlib Require Import ZArith String Ascii List.
From stdpp Require Import base option list gmap strings pretty.

Local Open Scope string_scope.
Local Open Scope list_scope.

(** ** The Python fragment the worker uses *)

Module Py.

(** Values found in a field of a state dictionary. *)
Inductive value :=
| VNone
| VBool (b : bool)
| VInt (z : Z)
| VStr (s : string).

Abbreviation dict := (gmap string value).

(** A reference to a dictionary object in the store. *)
Abbreviation ref := nat.

(** Exceptions below [Exception]; [RuntimeError msg cause] carries the
    [__cause__] set by [raise ... from e]. *)
#[warnings="-register-all"] Inductive exn :=
| KeyError (key : string)
| TypeError (msg : string)
| ValueError (msg : string)
| RecursionError (msg : string)
| SystemError (msg : string)
| RuntimeError (msg : string) (cause : option exn).

Definition cause (e : exn) : option exn :=
  match e with
  | RuntimeError _ c => c
  | _ => None
  end.

(** [type(e).__name__] *)
Definition class_name (e : exn) : string :=
  match e with
  | KeyError _ => "KeyError"
  | TypeError _ => "TypeError"
  | ValueError _ => "ValueError"
  | RecursionError _ => "RecursionError"
  | SystemError _ => "SystemError"
  | RuntimeError _ _ => "RuntimeError"
  end.

Inductive outcome (A : Type) :=
| Return (a : A)
| Raise (e : exn).
Arguments Return {A} a.
Arguments Raise {A} e.

(** Logging levels and their numbers. *)
Inductive level := DEBUG | INFO | WARNING | ERROR | CRITICAL.

Definition levelno (l : level) : nat :=
  match l with
  | DEBUG => 10
  | INFO => 20
  | WARNING => 30
  | ERROR => 40
  | CRITICAL => 50
  end.

(** A line on a stream.  [Logged n l t] is the line
    [<asctime> - n - l - t] that the handler formats from a record; the
    timestamp is left out of the model. *)
Inductive line :=
| Printed (text : string)
| Logged (name : string) (lvl : level) (text : string).

Record world := World {
  heap : list dict;
  stdout : list line
}.

(** What the interpreter provides and the modules do not define:
    [repr] on text and the module's [__name__]. *)
Class Host := {
  repr_str : string -> string;
  module_name : string
}.

(** Computations: state passing over the world, with exceptions. *)
Definition M (A : Type) : Type := world -> world * outcome A.

#[global] Instance M_ret : MRet M := fun A a w => (w, Return a).

#[global] Instance M_bind : MBind M := fun A B f m w =>
  match m w with
  | (w', Return a) => f a w'
  | (w', Raise e) => (w', Raise e)
  end.

Definition raise {A} (e : exn) : M A := fun w => (w, Raise e).

(** [try: body except Exception as e: handler e] *)
Definition try_except {A} (body : M A) (handler : exn -> M A) : M A :=
  fun w =>
    match body w with
    | (w', Return a) => (w', Return a)
    | (w', Raise e) => handler e w'
    end.

(** *** The store *)

(** A dictionary display [{...}] builds a new object. *)
Definition new_dict (d : dict) : M ref :=
  fun w => (World (heap w ++ [d]) (stdout w), Return (length (heap w))).

(** A reference outside the store cannot arise in Python; the model
    answers it with [SystemError]. *)
Definition deref (r : ref) : M dict :=
  fun w =>
    match heap w !! r with
    | Some d => (w, Return d)
    | None => (w, Raise (SystemError "bad reference"))
    end.

(** [state[key]] *)
Definition getitem (r : ref) (key : string) : M value :=
  d ← deref r;
  match d !! key with
  | Some v => mret v
  | None => raise (KeyError key)
  end.

(** *** Text *)

Definition dquote : string := String (ascii_of_nat 34) EmptyString.

Definition type_name (v : value) : string :=
  match v with
  | VNone => "NoneType"
  | VBool _ => "bool"
  | VInt _ => "int"
  | VStr _ => "str"
  end.

Definition concat_error (v : value) : exn :=
  TypeError ("can only concatenate str (not " +:+ dquote +:+ type_name v
             +:+ dquote +:+ ") to str").

(** [s + v] for a text [s] *)
Definition str_add (s : string) (v : value) : M value :=
  match v with
  | VStr t => mret (VStr (s +:+ t))
  | _ => raise (concat_error v)
  end.

Section WithHost.
Context {host : Host}.

Definition repr_value (v : value) : string :=
  match v with
  | VNone => "None"
  | VBool true => "True"
  | VBool false => "False"
  | VInt z => pretty z
  | VStr s => repr_str s
  end.

(** [str(d)] for a dictionary: exact for the one-field dictionaries the
    worker prints (the order of several fields is not modelled). *)
Definition repr_dict (d : dict) : string :=
  "{" +:+ String.concat ", "
            ((fun kv => repr_str kv.1 +:+ ": " +:+ repr_value kv.2)
               <$> map_to_list d)
      +:+ "}".

(** [str(e)] *)
Definition str_exn (e : exn) : string :=
  match e with
  | KeyError k => repr_str k
  | TypeError m | ValueError m | RecursionError m | SystemError m => m
  | RuntimeError m _ => m
  end.

Definition str_obj (r : ref) : M string :=
  d ← deref r; mret (repr_dict d).

(** *** Output *)

Definition write (l : line) : M unit :=
  fun w => (World (heap w) (stdout w ++ [l]), Return tt).

(** [print(obj)] *)
Definition print (r : ref) : M unit :=
  s ← str_obj r; write (Printed s).

(** [logging.basicConfig(level=logging.INFO, format=...,
    handlers=[logging.StreamHandler(sys.stdout)])]: a record at or
    above the root level is formatted and written to standard output. *)
Definition root_level : level := INFO.

Definition log (lvl : level) (text : string) : M unit :=
  if Nat.leb (levelno root_level) (levelno lvl)
  then write (Logged module_name lvl text)
  else mret tt.

End WithHost.

(** The record behind the reference a call returned, if it returned. *)
Definition result_of (x : world * outcome ref) : option dict :=
  match x.2 with
  | Return r => heap x.1 !! r
  | Raise _ => None
  end.

(** *** [repr] on ASCII text *)

Definition hex_digit (n : nat) : ascii :=
  nth n (list_ascii_of_string "0123456789abcdef") "0"%char.

Definition backslash : ascii := ascii_of_nat 92.

Fixpoint contains (c : ascii) (s : string) : bool :=
  match s with
  | EmptyString => false
  | String c' s' => Ascii.eqb c c' || contains c s'
  end.

(** Double quotes only when the text has a single quote and no double
    quote. *)
Definition quote_for (s : string) : ascii :=
  if contains "'"%char s && negb (contains (ascii_of_nat 34) s)
  then ascii_of_nat 34 else "'"%char.

Definition escape_char (quote c : ascii) : string :=
  let n := nat_of_ascii c in
  if Ascii.eqb c quote || Ascii.eqb c backslash
  then String backslash (String c EmptyString)
  else if Nat.eqb n 9 then String backslash "t"
  else if Nat.eqb n 10 then String backslash "n"
  else if Nat.eqb n 13 then String backslash "r"
  else if Nat.ltb n 32 || Nat.eqb n 127
  then String backslash
         (String "x" (String (hex_digit (n / 16))
                        (String (hex_digit (n mod 16)) EmptyString)))
  else String c EmptyString.

Fixpoint escape (quote : ascii) (s : string) : string :=
  match s with
  | EmptyString => EmptyString
  | String c s' => escape_char quote c +:+ escape quote s'
  end.

Definition repr_ascii (s : string) : string :=
  let q := quote_for s in
  String q (escape q s +:+ String q EmptyString).

(** The interpreter running the module as a script, on ASCII text. *)
Definition ScriptHost : Host := {|
  repr_str := repr_ascii;
  module_name := "__main__"
|}.

End Py.

(** ** The graph library *)

Module Graph.
Import Py.

(** The two markers of the library. *)
Definition START : string := "__start__".
Definition END : string := "__end__".

(** A node is a callable from a state to a state. *)
Abbreviation node_fn := (ref -> M ref).

(** The surface of the library the worker calls: [StateGraph(schema)],
    [add_node], [add_edge], [compile] and [invoke] of the compiled
    object.  Every call may raise. *)
Class Lib := {
  builder : Type;
  compiled : Type;
  StateGraph : list string -> M builder;
  add_node : string -> node_fn -> builder -> M builder;
  add_edge : string -> string -> builder -> M builder;
  compile : builder -> M compiled;
  invoke : compiled -> ref -> M ref
}.

(** *** A reference library *)

(** Modelled from the spec: the definition the external library keeps
    while it is built, the state schema, the registered nodes and the
    directed edges. *)
Record definition := MkDefinition {
  schema : list string;
  nodes : gmap string node_fn;
  edges : list (string * string)
}.

Definition successor (g : definition) (src : string) : option string :=
  snd <$> List.find (fun e => bool_decide (e.1 = src)) (edges g).

Definition known_source (g : definition) (n : string) : bool :=
  bool_decide (n = START) || bool_decide (is_Some (nodes g !! n)).

Definition known_target (g : definition) (n : string) : bool :=
  bool_decide (n = END) || bool_decide (is_Some (nodes g !! n)).

Definition well_formed (g : definition) : bool :=
  forallb (fun e => known_source g e.1 && known_target g e.2) (edges g)
  && bool_decide (is_Some (successor g START)).

(** Modelled from the spec: the run of a compiled graph of the external
    library, the walk from a marker or node [cur] to the end marker.
    Each node on the way is called on the record the previous one
    returned.  A walk longer than [limit] steps is given up. *)
Fixpoint walk (g : definition) (limit : nat) (cur : string) (state : ref)
  : M ref :=
  match limit with
  | O => raise (RecursionError "Recursion limit reached")
  | S limit' =>
      match successor g cur with
      | None => mret state
      | Some nxt =>
          if bool_decide (nxt = END) then mret state
          else match nodes g !! nxt with
               | None => raise (ValueError ("Unknown node " +:+ nxt))
               | Some f => state' ← f state; walk g limit' nxt state'
               end
      end
  end.

Definition recursion_limit : nat := 25.

(** Modelled from the spec: the external graph-orchestration library,
    which is not part of the repository.  It registers nodes, wires
    edges between the start marker, the nodes and the end marker, and
    compiles the definition into an object whose [invoke] takes a
    record and returns a record, by running the nodes along the edges
    from the start marker to the end marker.  A definition with an
    edge to or from an unregistered node, or without an edge out of
    the start marker, is rejected at compilation. *)
Definition PathLib : Lib := {|
  builder := definition;
  compiled := definition;
  StateGraph := fun sch => mret (MkDefinition sch ∅ []);
  add_node := fun name f g =>
    if bool_decide (is_Some (nodes g !! name))
    then raise (ValueError ("Node " +:+ name +:+ " already present."))
    else mret (MkDefinition (schema g) (<[name := f]> (nodes g)) (edges g));
  add_edge := fun src dst g =>
    mret (MkDefinition (schema g) (nodes g) (edges g ++ [(src, dst)]));
  compile := fun g =>
    if well_formed g then mret g
    else raise (ValueError "Invalid graph definition");
  invoke := fun g state => walk g recursion_limit START state
|}.

(** A library that accepts the same calls and rejects every definition
    at compilation: the failure path of construction. *)
Definition RejectingLib : Lib := {|
  builder := definition;
  compiled := definition;
  StateGraph := fun sch => mret (MkDefinition sch ∅ []);
  add_node := fun name f g =>
    mret (MkDefinition (schema g) (<[name := f]> (nodes g)) (edges g));
  add_edge := fun src dst g =>
    mret (MkDefinition (schema g) (nodes g) (edges g ++ [(src, dst)]));
  compile := fun _ => raise (ValueError "Invalid graph definition");
  invoke := fun g state => walk g recursion_limit START state
|}.

(** A library that builds and compiles every definition and whose
    compiled object raises when it is invoked: the failure path of
    invocation. *)
Definition BrokenInvokeLib : Lib := {|
  builder := definition;
  compiled := definition;
  StateGraph := fun sch => mret (MkDefinition sch ∅ []);
  add_node := fun name f g =>
    mret (MkDefinition (schema g) (<[name := f]> (nodes g)) (edges g));
  add_edge := fun src dst g =>
    mret (MkDefinition (schema g) (nodes g) (edges g ++ [(src, dst)]));
  compile := fun g => mret g;
  invoke := fun _ _ => raise (ValueError "Invocation failed")
|}.

End Graph.

(** ** [workers/run.py] *)

Module Top.
Import Py Graph.

Section Run.
Context {host : Host} {lib : Lib}.

(** [return {"message": "Welcome to my agent! " + state["message"]}] *)
Definition sample_node (state : ref) : M ref :=
  m ← getitem state "message";
  s ← str_add "Welcome to my agent! " m;
  new_dict {[ "message" := s ]}.

(** The module-level statements that build [workflow] and [graph]. *)
Definition graph : M compiled :=
  workflow ← StateGraph ["message"];
  workflow ← add_node "sample" sample_node workflow;
  workflow ← add_edge START "sample" workflow;
  workflow ← add_edge "sample" END workflow;
  compile workflow.

(** The block under [if __name__ == "__main__":]. *)
Definition main : M unit :=
  graph ← graph;
  initial_state ← new_dict {[ "message" := VStr "Mehrnoosh" ]};
  result ← invoke graph initial_state;
  print result.

End Run.

End Top.

(** ** [workers/src/agent/run.py] *)

Module Agent.
Import Py Graph.

(** [argparse]'s namespace after [parse_args]. *)
Record Namespace := {
  dry_run : bool;
  message : string
}.

Definition option_like (s : string) : bool :=
  match s with
  | String "-" _ => true
  | _ => false
  end.

(** [parser.parse_args()] on a fragment of the command lines: the
    words [--dry-run] and [--message TEXT] in any order and number,
    with a TEXT that does not start with a dash; a later option
    overrides an earlier one.  [None] stands for every command line
    outside this fragment and says nothing about it: [argparse] takes
    some of them (a TEXT such as [-5], abbreviated options,
    [--message=TEXT]) and leaves the process on others ([--help],
    usage errors).  The properties of the entry point are therefore
    stated on [main_with], for every parsed namespace. *)
Fixpoint parse_args_from (ns : Namespace) (argv : list string)
  : option Namespace :=
  match argv with
  | [] => Some ns
  | "--dry-run" :: rest =>
      parse_args_from {| dry_run := true; message := message ns |} rest
  | "--message" :: text :: rest =>
      if option_like text then None
      else parse_args_from {| dry_run := dry_run ns; message := text |} rest
  | _ => None
  end.

Definition parse_args (argv : list string) : option Namespace :=
  parse_args_from {| dry_run := false; message := "Mehrnoosh" |} argv.

Section Run.
Context {host : Host} {lib : Lib}.

Definition logger_error (text : string) : M unit := log ERROR text.
Definition logger_info (text : string) : M unit := log INFO text.

Definition sample_node (state : ref) : M ref :=
  try_except
    (m ← getitem state "message";
     s ← str_add "Welcome to my agent! " m;
     new_dict {[ "message" := s ]})
    (fun e =>
       logger_error ("Error processing state in sample_node: " +:+ str_exn e);;
       raise (RuntimeError
                ("Failed to process state in sample_node: " +:+ str_exn e)
                (Some e))).

(** The statements under [try:] in [create_workflow]. *)
Definition build_workflow : M compiled :=
  workflow ← StateGraph ["message"];
  workflow ← add_node "sample" sample_node workflow;
  workflow ← add_edge START "sample" workflow;
  workflow ← add_edge "sample" END workflow;
  compile workflow.

Definition create_workflow : M compiled :=
  try_except build_workflow
    (fun e =>
       logger_error ("Failed to create workflow: " +:+ str_exn e);;
       raise (RuntimeError ("Workflow creation failed: " +:+ str_exn e)
                (Some e))).

(** [f"Welcome to my agent! {message}"] for a text [message] *)
Definition welcome (message : string) : string :=
  "Welcome to my agent! " +:+ message.

(** ["state transition: %s -> %s" % (old, new)] *)
Definition transition (old new : string) : string :=
  "state transition: " +:+ old +:+ " -> " +:+ new.

Definition run_agent (dry_run : bool) (message : string) : M ref :=
  initial_state ← new_dict {[ "message" := VStr message ]};
  if dry_run then
    computed ← new_dict {[ "message" := VStr (welcome message) ]};
    old ← str_obj initial_state;
    new ← str_obj computed;
    logger_info (transition old new);;
    new_dict {[ "message" := VStr (welcome message) ]}
  else
    graph ← create_workflow;
    result ← invoke graph initial_state;
    mret result.

(** The statements under [try:] in [main]. *)
Definition main_try (args : Namespace) : M unit :=
  result ← run_agent (dry_run args) (message args);
  if negb (dry_run args) then print result else mret tt.

(** The body of [main] after [args = parser.parse_args()]; the number
    is the exit status of the process: [sys.exit(1)] in the handler,
    0 when [main] returns. *)
Definition main_with (args : Namespace) : world -> world * nat :=
  fun w =>
    match main_try args w with
    | (w', Return _) => (w', 0)
    | (w', Raise e) =>
        (fst (logger_error ("Failed to run agent: " +:+ str_exn e) w'), 1)
    end.

(** [main()] with [sys.argv[1:] = argv]. *)
Definition main (argv : list string) (w : world) : option (world * nat) :=
  args ← parse_args argv; Some (main_with args w).

End Run.

End Agent.

(** ** The error kinds of the specification

    The specification names two error kinds.  Both are the built-in
    [RuntimeError] in the code, told apart by the operation named in
    the message, with the original failure as [__cause__]. *)

Module ErrorKinds.
Import Py.

Section Kinds.
Context {host : Host}.

Definition ProcessingError (e : exn) : exn :=
  RuntimeError ("Failed to process state in sample_node: " +:+ str_exn e)
    (Some e).

Definition WorkflowConstructionError (e : exn) : exn :=
  RuntimeError ("Workflow creation failed: " +:+ str_exn e) (Some e).

(** The failure of [state["message"]] or of the concatenation on a
    record, if there is one. *)
Definition lookup_failure (d : dict) : option exn :=
  match d !! "message" with
  | None => Some (KeyError "message")
  | Some (VStr _) => None
  | Some v => Some (concat_error v)
  end.

(** The world after one record of the module's logger was handled. *)
Definition logged (lvl : level) (text : string) (w : world) : world :=
  World (heap w) (stdout w ++ [Logged module_name lvl text]).

End Kinds.

End ErrorKinds.

(** ** Sample stores *)

Module Samples.
Import Py.

(** A store with one record, whose message field is [v]. *)
Definition one_record (v : value) : world :=
  World [{[ "message" := v ]}] [].

(** A store with one record without fields. *)
Definition empty_record : world := World [∅] [].

(** The store and the streams when the process starts. *)
Definition fresh : world := World [] [].

End Samples.

Import Py Graph ErrorKinds Samples.

(** ** Running the model *)

Example repr_ascii_plain : repr_ascii "Mehrnoosh" = "'Mehrnoosh'".
Proof. reflexivity. Qed.

Example repr_ascii_single_quote :
  repr_ascii "it's" = dquote +:+ "it's" +:+ dquote.
Proof. reflexivity. Qed.

Example parse_args_both :
  Agent.parse_args ["--message"; "a"; "--dry-run"]
  = Some {| Agent.dry_run := true; Agent.message := "a" |}.
Proof. reflexivity. Qed.

Example parse_args_dash : Agent.parse_args ["--message"; "-a"] = None.
Proof. reflexivity. Qed.

(** ** The transformer *)

Section Transformer.
Context {host : Host}.

Lemma getitem_found (w : world) (r : ref) (d : dict) (k : string) (v : value) :
  heap w !! r = Some d -> d !! k = Some v -> getitem r k w = (w, Return v).
Proof.
  intros Hr Hk. unfold getitem, deref, mbind, M_bind.
  rewrite Hr, Hk. reflexivity.
Qed.

Lemma getitem_missing (w : world) (r : ref) (d : dict) (k : string) :
  heap w !! r = Some d -> d !! k = None ->
  getitem r k w = (w, Raise (KeyError k)).
Proof.
  intros Hr Hk. unfold getitem, deref, mbind, M_bind.
  rewrite Hr, Hk. reflexivity.
Qed.

Lemma new_dict_lookup (w : world) (d : dict) :
  result_of (new_dict d w) = Some d.
Proof.
  unfold result_of, new_dict. simpl. apply list_lookup_middle. reflexivity.
Qed.

Lemma log_error_writes (text : string) (w : world) :
  log ERROR text w = (logged ERROR text w, Return tt).
Proof. reflexivity. Qed.

Lemma log_info_writes (text : string) (w : world) :
  log INFO text w = (logged INFO text w, Return tt).
Proof. reflexivity. Qed.

(** The body of both variants on a record with a text message. *)
Lemma top_sample_node_text (w : world) (state : ref) (d : dict) (m : string) :
  heap w !! state = Some d ->
  d !! "message" = Some (VStr m) ->
  Top.sample_node state w
  = new_dict {[ "message" := VStr ("Welcome to my agent! " +:+ m) ]} w.
Proof.
  intros Hr Hk. unfold Top.sample_node, mbind, M_bind.
  rewrite (getitem_found w state d "message" (VStr m) Hr Hk). reflexivity.
Qed.

Lemma top_sample_node_failure (w : world) (state : ref) (d : dict) (e : exn) :
  heap w !! state = Some d ->
  lookup_failure d = Some e ->
  Top.sample_node state w = (w, Raise e).
Proof.
  intros Hr Hf. unfold lookup_failure in Hf.
  unfold Top.sample_node, mbind, M_bind.
  destruct (d !! "message") as [v|] eqn:Hk.
  - rewrite (getitem_found w state d "message" v Hr Hk).
    destruct v; inversion Hf; reflexivity.
  - rewrite (getitem_missing w state d "message" Hr Hk).
    inversion Hf; reflexivity.
Qed.

Lemma agent_sample_node_try (state : ref) (w : world) :
  Agent.sample_node state w
  = match Top.sample_node state w with
    | (w', Return r) => (w', Return r)
    | (w', Raise e) =>
        (logged ERROR ("Error processing state in sample_node: " +:+ str_exn e) w',
         Raise (ProcessingError e))
    end.
Proof.
  unfold Agent.sample_node, try_except, Top.sample_node.
  match goal with
  | |- context [match ?x with _ => _ end] => destruct x as [w' [r|e]]
  end; reflexivity.
Qed.

Lemma lookup_failure_None (d : dict) :
  lookup_failure d = None <-> exists m, d !! "message" = Some (VStr m).
Proof.
  unfold lookup_failure. split.
  - destruct (d !! "message") as [[]|]; intros Hf; inversion Hf. eauto.
  - intros [m ->]. reflexivity.
Qed.

(** Either variant leaves the store as it was or adds one object at
    the end, and returns only the reference of the object it added. *)
Lemma top_sample_node_store (state : ref) (w : world) :
  (exists e, Top.sample_node state w = (w, Raise e))
  \/ (exists out, is_Some (heap w !! state)
                 /\ Top.sample_node state w = new_dict out w).
Proof.
  unfold Top.sample_node, getitem, deref, mbind, M_bind.
  destruct (heap w !! state) as [d|] eqn:Hr; [|left; eauto].
  destruct (d !! "message") as [v|]; [|left; eauto].
  destruct v; try (left; eexists; reflexivity).
  right. eexists. split; [eauto | reflexivity].
Qed.

Lemma agent_sample_node_store (state : ref) (w : world) :
  (exists e text, Agent.sample_node state w = (logged ERROR text w, Raise e))
  \/ (exists out, is_Some (heap w !! state)
                 /\ Agent.sample_node state w = new_dict out w).
Proof.
  rewrite agent_sample_node_try.
  destruct (top_sample_node_store state w) as [[e ->] | (out & Hs & ->)].
  - left. eauto.
  - right. exists out. split; [exact Hs | reflexivity].
Qed.

Lemma new_dict_frame (out : dict) (w : world) (r : ref) (x : dict) :
  heap w !! r = Some x -> heap (new_dict out w).1 !! r = Some x.
Proof. intros Hr. simpl. apply lookup_app_l_Some. exact Hr. Qed.

Lemma new_dict_fresh (out : dict) (w : world) (state r : ref) :
  is_Some (heap w !! state) -> (new_dict out w).2 = Return r ->
  r <> state /\ heap w !! r = None.
Proof.
  intros Hs Hret. simpl in Hret. injection Hret as <-.
  apply lookup_lt_is_Some in Hs. split; [lia|].
  apply lookup_ge_None. lia.
Qed.

Lemma agent_sample_node_text (w : world) (state : ref) (d : dict) (m : string) :
  heap w !! state = Some d ->
  d !! "message" = Some (VStr m) ->
  Agent.sample_node state w
  = new_dict {[ "message" := VStr ("Welcome to my agent! " +:+ m) ]} w.
Proof.
  intros Hr Hk.
  rewrite agent_sample_node_try, (top_sample_node_text w state d m Hr Hk).
  reflexivity.
Qed.

(** C1: on a record whose message field is a text [m], the transformer
    (both variants) returns a new record whose message field is
    ["Welcome to my agent! "] followed by [m]; this holds for every
    text, the empty one, whitespace, multi-byte and long text alike. *)
Theorem C1_sample_node_prefixes_message
  (w : world) (state : ref) (d : dict) (m : string) :
  heap w !! state = Some d ->
  d !! "message" = Some (VStr m) ->
  let out : dict := {[ "message" := VStr ("Welcome to my agent! " +:+ m) ]} in
  let w' := World (heap w ++ [out]) (stdout w) in
  Agent.sample_node state w = (w', Return (length (heap w)))
  /\ Top.sample_node state w = (w', Return (length (heap w)))
  /\ result_of (Agent.sample_node state w) = Some out
  /\ out !! "message" = Some (VStr ("Welcome to my agent! " +:+ m)).
Proof.
  intros Hr Hk out w'.
  assert (Top.sample_node state w = (w', Return (length (heap w)))) as Ht.
  { rewrite (top_sample_node_text w state d m Hr Hk). reflexivity. }
  assert (Agent.sample_node state w = (w', Return (length (heap w)))) as Ha.
  { rewrite (agent_sample_node_text w state d m Hr Hk). reflexivity. }
  split; [exact Ha|]. split; [exact Ht|]. split.
  - rewrite Ha. apply (new_dict_lookup w out).
  - apply lookup_singleton_eq.
Qed.

(** C3: on a record without the message field, or whose message field
    is not a text, the transformer of the agent module writes one
    error-level log record and then raises the processing error (a
    [RuntimeError] naming the operation) whose cause is the original
    [KeyError] or [TypeError]. *)
Theorem C3_sample_node_wraps_failure
  (w : world) (state : ref) (d : dict) (e : exn) :
  heap w !! state = Some d ->
  lookup_failure d = Some e ->
  Agent.sample_node state w
  = (logged ERROR ("Error processing state in sample_node: " +:+ str_exn e) w,
     Raise (ProcessingError e))
  /\ cause (ProcessingError e) = Some e
  /\ class_name (ProcessingError e) = "RuntimeError"
  /\ (d !! "message" = None -> e = KeyError "message").
Proof.
  intros Hr Hf.
  split; [|split; [reflexivity|split; [reflexivity|]]].
  - rewrite agent_sample_node_try.
    rewrite (top_sample_node_failure w state d e Hr Hf). reflexivity.
  - intros Hk. unfold lookup_failure in Hf. rewrite Hk in Hf.
    injection Hf as <-. reflexivity.
Qed.

(** C5: the transformer does not change its input: after the call the
    input record, and every other record of the store, is what it was
    before, and a returned record is a new object, different from the
    input and from every object that existed before the call. *)
Theorem C5_sample_node_keeps_input (w : world) (state : ref) (d : dict) :
  heap w !! state = Some d ->
  heap (Agent.sample_node state w).1 !! state = Some d
  /\ heap (Top.sample_node state w).1 !! state = Some d
  /\ (forall r x, heap w !! r = Some x ->
        heap (Agent.sample_node state w).1 !! r = Some x
        /\ heap (Top.sample_node state w).1 !! r = Some x)
  /\ (forall r, (Agent.sample_node state w).2 = Return r
               \/ (Top.sample_node state w).2 = Return r ->
        r <> state /\ heap w !! r = None).
Proof.
  intros Hd.
  assert (forall r x, heap w !! r = Some x ->
            heap (Agent.sample_node state w).1 !! r = Some x
            /\ heap (Top.sample_node state w).1 !! r = Some x) as Hframe.
  { intros r x Hr. split.
    - destruct (agent_sample_node_store state w)
        as [(e & text & ->) | (out & _ & ->)];
        [exact Hr | apply new_dict_frame, Hr].
    - destruct (top_sample_node_store state w) as [[e ->] | (out & _ & ->)];
        [exact Hr | apply new_dict_frame, Hr]. }
  split; [apply (Hframe state d Hd)|].
  split; [apply (Hframe state d Hd)|].
  split; [exact Hframe|].
  intros r [Hret | Hret].
  - destruct (agent_sample_node_store state w)
      as [(e & text & Heq) | (out & Hs & Heq)]; rewrite Heq in Hret.
    + discriminate Hret.
    + exact (new_dict_fresh out w state r Hs Hret).
  - destruct (top_sample_node_store state w) as [[e Heq] | (out & Hs & Heq)];
      rewrite Heq in Hret.
    + discriminate Hret.
    + exact (new_dict_fresh out w state r Hs Hret).
Qed.

(** C10: the transformer of [workers/run.py] wraps nothing: on a record
    without the message field it raises the bare [KeyError], with no
    cause and nothing written, where the transformer of the agent
    module logs and raises the wrapping [RuntimeError]. *)
Theorem C10_top_sample_node_raises_key_error
  (w : world) (state : ref) (d : dict) :
  heap w !! state = Some d ->
  d !! "message" = None ->
  Top.sample_node state w = (w, Raise (KeyError "message"))
  /\ class_name (KeyError "message") = "KeyError"
  /\ cause (KeyError "message") = None
  /\ Agent.sample_node state w
     = (logged ERROR ("Error processing state in sample_node: "
                      +:+ repr_str "message") w,
        Raise (ProcessingError (KeyError "message")))
  /\ Agent.sample_node state w <> Top.sample_node state w.
Proof.
  intros Hr Hk.
  assert (lookup_failure d = Some (KeyError "message")) as Hf.
  { unfold lookup_failure. rewrite Hk. reflexivity. }
  assert (Top.sample_node state w = (w, Raise (KeyError "message"))) as Ht.
  { exact (top_sample_node_failure w state d _ Hr Hf). }
  assert (Agent.sample_node state w
          = (logged ERROR ("Error processing state in sample_node: "
                           +:+ repr_str "message") w,
             Raise (ProcessingError (KeyError "message")))) as Ha.
  { rewrite agent_sample_node_try, Ht. reflexivity. }
  split; [exact Ht|]. split; [reflexivity|]. split; [reflexivity|].
  split; [exact Ha|].
  rewrite Ha, Ht. intros Heq. discriminate Heq.
Qed.

End Transformer.

(** ** The workflow *)

Section Workflow.
Context {host : Host}.

(** The definition both modules hand to the library, with node [f]. *)
Lemma one_node_invoke (sch : list string) (f : node_fn) (state : ref) (w : world) :
  walk (MkDefinition sch {[ "sample" := f ]}
          [(START, "sample"); ("sample", END)])
    recursion_limit START state w
  = f state w.
Proof.
  change (match f state w with
          | (w', Return a) => (w', Return a)
          | (w', Raise e) => (w', Raise e)
          end = f state w).
  destruct (f state w) as [w' [r|e]]; reflexivity.
Qed.

Lemma path_build_top (w : world) :
  Top.graph (lib := PathLib) w
  = (w, Return (MkDefinition ["message"] {[ "sample" := Top.sample_node ]}
                  [(START, "sample"); ("sample", END)])).
Proof. reflexivity. Qed.

Lemma path_build_agent (w : world) :
  Agent.build_workflow (lib := PathLib) w
  = (w, Return (MkDefinition ["message"] {[ "sample" := Agent.sample_node ]}
                  [(START, "sample"); ("sample", END)])).
Proof. reflexivity. Qed.

Lemma path_create_workflow (w : world) :
  Agent.create_workflow (lib := PathLib) w
  = (w, Return (MkDefinition ["message"] {[ "sample" := Agent.sample_node ]}
                  [(START, "sample"); ("sample", END)])).
Proof. unfold Agent.create_workflow, try_except. rewrite path_build_agent. reflexivity. Qed.

(** C2: on a record with a text message, invoking the compiled
    one-node graph gives what one direct call of the transformer gives:
    the same store, the same output and the same returned record, for
    the graph of the agent module and for the graph of [workers/run.py]. *)
Theorem C2_invoke_is_sample_node
  (w : world) (state : ref) (d : dict) (m : string) :
  heap w !! state = Some d ->
  d !! "message" = Some (VStr m) ->
  (graph ← Agent.create_workflow (lib := PathLib); @invoke PathLib graph state) w
  = Agent.sample_node state w
  /\ (graph ← Top.graph (lib := PathLib); @invoke PathLib graph state) w
     = Top.sample_node state w
  /\ result_of ((graph ← Agent.create_workflow (lib := PathLib);
                 @invoke PathLib graph state) w)
     = Some {[ "message" := VStr ("Welcome to my agent! " +:+ m) ]}.
Proof.
  intros Hr Hk.
  assert ((graph ← Agent.create_workflow (lib := PathLib);
           @invoke PathLib graph state) w
          = Agent.sample_node state w) as Ha.
  { unfold mbind, M_bind. rewrite path_create_workflow.
    apply one_node_invoke. }
  split; [exact Ha|]. split.
  - unfold mbind, M_bind. rewrite path_build_top. apply one_node_invoke.
  - rewrite Ha, (agent_sample_node_text w state d m Hr Hk).
    apply new_dict_lookup.
Qed.

End Workflow.

(** ** Construction of the workflow *)

Section Construction.
Context {host : Host}.

Lemma create_workflow_try {lib : Lib} (w : world) :
  Agent.create_workflow w
  = match Agent.build_workflow w with
    | (w', Return graph) => (w', Return graph)
    | (w', Raise e) =>
        (logged ERROR ("Failed to create workflow: " +:+ str_exn e) w',
         Raise (WorkflowConstructionError e))
    end.
Proof.
  unfold Agent.create_workflow, try_except.
  destruct (Agent.build_workflow w) as [w' [graph|e]]; reflexivity.
Qed.

Lemma rejecting_build (w : world) :
  Agent.build_workflow (lib := RejectingLib) w
  = (w, Raise (ValueError "Invalid graph definition")).
Proof. reflexivity. Qed.

(** C8: when a step of the construction raises [e], [create_workflow]
    writes one error-level log record and then raises the construction
    error (a [RuntimeError] naming the operation) with [e] as its cause;
    when no step raises, it returns the compiled graph and writes
    nothing.  Both cases occur: a library that rejects the definition
    gives the first, the reference library the second. *)
Theorem C8_create_workflow_wraps_failure (lib : Lib) (w : world) :
  match Agent.build_workflow w with
  | (w', Return graph) => Agent.create_workflow w = (w', Return graph)
  | (w', Raise e) =>
      Agent.create_workflow w
      = (logged ERROR ("Failed to create workflow: " +:+ str_exn e) w',
         Raise (WorkflowConstructionError e))
      /\ cause (WorkflowConstructionError e) = Some e
      /\ class_name (WorkflowConstructionError e) = "RuntimeError"
  end
  /\ Agent.create_workflow (lib := RejectingLib) w
     = (logged ERROR "Failed to create workflow: Invalid graph definition" w,
        Raise (WorkflowConstructionError
                 (ValueError "Invalid graph definition")))
  /\ (Agent.create_workflow (lib := PathLib) w).1 = w
  /\ exists graph,
       (Agent.create_workflow (lib := PathLib) w).2 = Return graph
       /\ forall state w1,
            @invoke PathLib graph state w1 = Agent.sample_node state w1.
Proof.
  split; [|split; [|split]].
  - rewrite create_workflow_try.
    destruct (Agent.build_workflow w) as [w' [graph|e]];
      [reflexivity | repeat split].
  - rewrite create_workflow_try, rejecting_build. reflexivity.
  - rewrite path_create_workflow. reflexivity.
  - rewrite path_create_workflow. eexists. split; [reflexivity|].
    intros state w1. apply one_node_invoke.
Qed.

End Construction.

(** ** Running the agent *)

Section RunAgent.
Context {host : Host}.

(** [str] of a one-field record. *)
Lemma repr_dict_message (v : value) :
  repr_dict {[ "message" := v ]}
  = "{" +:+ (repr_str "message" +:+ ": " +:+ repr_value v) +:+ "}".
Proof. unfold repr_dict. rewrite map_to_list_singleton. reflexivity. Qed.

Lemma str_obj_at (w : world) (r : ref) (d : dict) :
  heap w !! r = Some d -> str_obj r w = (w, Return (repr_dict d)).
Proof.
  intros Hr. unfold str_obj, deref, mbind, M_bind. rewrite Hr. reflexivity.
Qed.

Lemma lookup_snoc_last {A} (l : list A) (x : A) :
  (l ++ [x]) !! length l = Some x.
Proof. apply list_lookup_middle. reflexivity. Qed.

Lemma lookup_snoc_before {A} (l : list A) (x y : A) :
  ((l ++ [x]) ++ [y]) !! length l = Some x.
Proof.
  rewrite lookup_app_l; [apply lookup_snoc_last|].
  rewrite length_app. simpl. lia.
Qed.

Lemma lookup_app_offset {A} (l k : list A) (i : nat) :
  (l ++ k) !! (length l + i) = k !! i.
Proof.
  rewrite lookup_app_r by lia.
  replace (length l + i - length l) with i by lia. reflexivity.
Qed.

(** A dry run, whatever the library: three records are built (the
    initial one, the one shown in the log and the one returned) and one
    line is written. *)
Lemma run_agent_dry {lib : Lib} (m : string) (w : world) :
  let initial : dict := {[ "message" := VStr m ]} in
  let computed : dict := {[ "message" := VStr ("Welcome to my agent! " +:+ m) ]} in
  Agent.run_agent true m w
  = (World (heap w ++ [initial; computed; computed])
       (stdout w ++ [Logged module_name INFO
                       (Agent.transition (repr_dict initial) (repr_dict computed))]),
     Return (length (heap w) + 2)).
Proof.
  intros initial computed.
  unfold Agent.run_agent, mbind, M_bind, new_dict.
  cbn [heap stdout].
  rewrite (str_obj_at _ (length (heap w)) initial)
    by (cbn [heap]; apply lookup_snoc_before).
  rewrite (str_obj_at _ (length (heap w ++ [initial])) computed)
    by (cbn [heap]; apply lookup_snoc_last).
  unfold Agent.logger_info. rewrite log_info_writes.
  unfold logged. cbn [heap stdout].
  rewrite <- !app_assoc, !length_app. cbn [length app].
  replace (length (heap w) + 1 + 1) with (length (heap w) + 2) by lia.
  reflexivity.
Qed.

(** A run through the reference library: two records are built and
    nothing is written. *)
Lemma run_agent_path (m : string) (w : world) :
  let initial : dict := {[ "message" := VStr m ]} in
  let computed : dict := {[ "message" := VStr ("Welcome to my agent! " +:+ m) ]} in
  Agent.run_agent (lib := PathLib) false m w
  = (World (heap w ++ [initial; computed]) (stdout w),
     Return (length (heap w) + 1)).
Proof.
  intros initial computed.
  unfold Agent.run_agent, mbind, M_bind.
  change (new_dict {[ "message" := VStr m ]} w)
    with (World (heap w ++ [initial]) (stdout w), Return (length (heap w))).
  cbv beta iota. rewrite path_create_workflow.
  change (@invoke PathLib ?g ?s ?w1)
    with (walk g recursion_limit START s w1).
  rewrite one_node_invoke.
  rewrite (agent_sample_node_text _ (length (heap w)) initial m)
    by (cbn [heap]; first [apply lookup_snoc_last | apply lookup_singleton_eq]).
  unfold new_dict. cbn [heap stdout].
  rewrite <- !app_assoc, !length_app. reflexivity.
Qed.

Lemma append_assoc_text (a b c : string) : (a +:+ b) +:+ c = a +:+ (b +:+ c).
Proof.
  induction a as [|x a IH]; [reflexivity|].
  change (String x ((a +:+ b) +:+ c) = String x (a +:+ (b +:+ c))).
  f_equal. exact IH.
Qed.

(** [str] of a one-field record with a text, and the line of the
    transition, letter by letter. *)
Lemma repr_dict_text (s : string) :
  repr_dict {[ "message" := VStr s ]}
  = "{" +:+ repr_str "message" +:+ ": " +:+ repr_str s +:+ "}".
Proof.
  rewrite repr_dict_message. cbn [repr_value].
  rewrite !append_assoc_text. reflexivity.
Qed.

Lemma transition_text (m : string) :
  Agent.transition (repr_dict {[ "message" := VStr m ]})
    (repr_dict {[ "message" := VStr ("Welcome to my agent! " +:+ m) ]})
  = "state transition: {" +:+ repr_str "message" +:+ ": " +:+ repr_str m
    +:+ "} -> {" +:+ repr_str "message" +:+ ": "
    +:+ repr_str ("Welcome to my agent! " +:+ m) +:+ "}".
Proof.
  unfold Agent.transition. rewrite !repr_dict_text.
  rewrite !append_assoc_text. reflexivity.
Qed.

(** C9: for every text [m], a dry run returns the record
    [{message: "Welcome to my agent! " + m}], the same record a run
    through the workflow returns; it writes one line, the info-level
    record with the text
    [state transition: {'message': m} -> {'message': 'Welcome to my agent! m'}],
    and does not depend on the graph library at all: a library that
    cannot build the workflow gives the very same dry run. *)
Theorem C9_dry_run_returns_same_record (lib : Lib) (m : string) (w : world) :
  let computed : dict := {[ "message" := VStr ("Welcome to my agent! " +:+ m) ]} in
  result_of (Agent.run_agent (lib := lib) true m w)
  = result_of (Agent.run_agent (lib := PathLib) false m w)
  /\ result_of (Agent.run_agent (lib := lib) true m w) = Some computed
  /\ stdout (Agent.run_agent (lib := lib) true m w).1
     = stdout w
       ++ [Logged module_name INFO
             ("state transition: {" +:+ repr_str "message" +:+ ": "
              +:+ repr_str m +:+ "} -> {" +:+ repr_str "message" +:+ ": "
              +:+ repr_str ("Welcome to my agent! " +:+ m) +:+ "}")]
  /\ stdout (Agent.run_agent (host := ScriptHost) (lib := lib) true "X"
               fresh).1
     = [Logged "__main__" INFO
          "state transition: {'message': 'X'} -> {'message': 'Welcome to my agent! X'}"]
  /\ Agent.run_agent (lib := lib) true m w
     = Agent.run_agent (lib := RejectingLib) true m w.
Proof.
  intros computed.
  assert (result_of (Agent.run_agent (lib := lib) true m w) = Some computed)
    as Hdry.
  { rewrite run_agent_dry. unfold result_of. cbn [fst snd heap].
    rewrite lookup_app_offset. reflexivity. }
  split; [|split; [exact Hdry|split; [|split]]].
  - rewrite Hdry, run_agent_path. unfold result_of. cbn [fst snd heap].
    rewrite lookup_app_offset. reflexivity.
  - rewrite run_agent_dry. cbn [fst stdout]. rewrite transition_text.
    reflexivity.
  - reflexivity.
  - rewrite !run_agent_dry. reflexivity.
Qed.

(** The statements under [try:] in [main], in a dry run and in a run
    through the reference library. *)
Lemma main_try_dry {lib : Lib} (m : string) (w : world) :
  Agent.main_try {| Agent.dry_run := true; Agent.message := m |} w
  = ((Agent.run_agent true m w).1, Return tt).
Proof.
  unfold Agent.main_try, mbind, M_bind. cbn [Agent.dry_run Agent.message].
  rewrite run_agent_dry. reflexivity.
Qed.

Lemma main_try_path (m : string) (w : world) :
  let initial : dict := {[ "message" := VStr m ]} in
  let computed : dict := {[ "message" := VStr ("Welcome to my agent! " +:+ m) ]} in
  Agent.main_try (lib := PathLib)
    {| Agent.dry_run := false; Agent.message := m |} w
  = (World (heap w ++ [initial; computed])
       (stdout w ++ [Printed (repr_dict computed)]),
     Return tt).
Proof.
  intros initial computed.
  unfold Agent.main_try, mbind, M_bind. cbn [Agent.dry_run Agent.message].
  rewrite run_agent_path. cbv beta iota zeta. cbn [negb].
  unfold print, mbind, M_bind.
  rewrite (str_obj_at _ (length (heap w) + 1) computed).
  - reflexivity.
  - cbn [heap]. rewrite lookup_app_offset. reflexivity.
Qed.

Lemma main_with_try {lib : Lib} (args : Agent.Namespace) (w : world) :
  Agent.main_with args w
  = match Agent.main_try args w with
    | (w', Return _) => (w', 0)
    | (w', Raise e) =>
        (logged ERROR ("Failed to run agent: " +:+ str_exn e) w', 1)
    end.
Proof.
  unfold Agent.main_with.
  destruct (Agent.main_try args w) as [w' [u|e]]; reflexivity.
Qed.

Lemma main_with_dry {lib : Lib} (m : string) (w : world) :
  Agent.main_with {| Agent.dry_run := true; Agent.message := m |} w
  = ((Agent.run_agent true m w).1, 0).
Proof. rewrite main_with_try, main_try_dry. reflexivity. Qed.

(** C4 (amended): for every text [X], a dry run of the entry point
    with message [X] prints no record: it computes the output record
    by the prefix rule and writes exactly one line, the info-level log
    record
    [state transition: {'message': X} -> {'message': 'Welcome to my agent! X'}]
    of the transition from the initial record to the computed one.
    The handler of the log is a stream handler on standard output, so
    this line goes to standard output and is all that is written
    there; the exit status is 0. *)
Theorem C4_dry_run_writes_one_log_line (lib : Lib) (X : string) (w : world) :
  exists w',
    Agent.main_with {| Agent.dry_run := true; Agent.message := X |} w
    = (w', 0)
    /\ stdout w'
       = stdout w
         ++ [Logged module_name INFO
               ("state transition: {" +:+ repr_str "message" +:+ ": "
                +:+ repr_str X +:+ "} -> {" +:+ repr_str "message" +:+ ": "
                +:+ repr_str ("Welcome to my agent! " +:+ X) +:+ "}")]
    /\ heap w'
       = heap w
         ++ [{[ "message" := VStr X ]};
             {[ "message" := VStr ("Welcome to my agent! " +:+ X) ]};
             {[ "message" := VStr ("Welcome to my agent! " +:+ X) ]}]
    /\ stdout (Agent.main_with (host := ScriptHost) (lib := lib)
                 {| Agent.dry_run := true; Agent.message := "-5" |} fresh).1
       = [Logged "__main__" INFO
            "state transition: {'message': '-5'} -> {'message': 'Welcome to my agent! -5'}"].
Proof.
  eexists. rewrite main_with_dry. split; [reflexivity|].
  rewrite run_agent_dry. cbn [fst stdout heap]. rewrite transition_text.
  split; [reflexivity|]. split; reflexivity.
Qed.

(** C6: the command line without options parses to dry-run false and
    message ["Mehrnoosh"]; the run prints one line, the record
    [{message: "Welcome to my agent! Mehrnoosh"}], writes nothing else
    and exits with status 0. *)
Theorem C6_main_without_flags (w : world) :
  let result : dict := {[ "message" := VStr "Welcome to my agent! Mehrnoosh" ]} in
  Agent.parse_args []
  = Some {| Agent.dry_run := false; Agent.message := "Mehrnoosh" |}
  /\ Agent.main (lib := PathLib) [] w
     = Some (World (heap w ++ [{[ "message" := VStr "Mehrnoosh" ]}; result])
               (stdout w ++ [Printed (repr_dict result)]), 0)
  /\ repr_dict (host := ScriptHost) result
     = "{'message': 'Welcome to my agent! Mehrnoosh'}".
Proof.
  intros result. split; [reflexivity|]. split; [|reflexivity].
  unfold Agent.main.
  change (Agent.parse_args [])
    with (Some {| Agent.dry_run := false; Agent.message := "Mehrnoosh" |}).
  cbn [mbind option_bind]. rewrite main_with_try, main_try_path. reflexivity.
Qed.


End RunAgent.

(** ** The properties on sample inputs *)

Lemma C1_sample_node_john :
  Agent.sample_node (host := ScriptHost) 0 (one_record (VStr "John"))
  = (World [{[ "message" := VStr "John" ]};
            {[ "message" := VStr "Welcome to my agent! John" ]}] [],
     Return 1).
Proof.
  destruct (C1_sample_node_prefixes_message (host := ScriptHost)
              (one_record (VStr "John")) 0 {[ "message" := VStr "John" ]}
              "John" eq_refl eq_refl) as [Ha _].
  exact Ha.
Defined.

Lemma C2_invoke_test_user :
  (graph ← Agent.create_workflow (host := ScriptHost) (lib := PathLib);
   @invoke PathLib graph 0) (one_record (VStr "TestUser"))
  = Agent.sample_node (host := ScriptHost) 0 (one_record (VStr "TestUser")).
Proof.
  destruct (C2_invoke_is_sample_node (host := ScriptHost)
              (one_record (VStr "TestUser")) 0
              {[ "message" := VStr "TestUser" ]} "TestUser"
              eq_refl eq_refl) as [Ha _].
  exact Ha.
Defined.

Lemma C3_sample_node_missing_key :
  Agent.sample_node (host := ScriptHost) 0 empty_record
  = (World [∅]
       [Logged "__main__" ERROR
          "Error processing state in sample_node: 'message'"],
     Raise (RuntimeError "Failed to process state in sample_node: 'message'"
              (Some (KeyError "message")))).
Proof.
  destruct (C3_sample_node_wraps_failure (host := ScriptHost)
              empty_record 0 ∅ (KeyError "message") eq_refl eq_refl)
    as [Ha _].
  exact Ha.
Defined.

(** The log line of a dry run is on standard output: the stream is not
    what it was before the run. *)
Lemma C4_dry_run_stdout_changes :
  stdout (Agent.main_with (host := ScriptHost) (lib := PathLib)
            {| Agent.dry_run := true; Agent.message := "X" |} fresh).1
  = [Logged "__main__" INFO
       "state transition: {'message': 'X'} -> {'message': 'Welcome to my agent! X'}"]
  /\ stdout (Agent.main_with (host := ScriptHost) (lib := PathLib)
               {| Agent.dry_run := true; Agent.message := "X" |} fresh).1
     <> stdout fresh.
Proof.
  split; [reflexivity|]. intros Heq. discriminate Heq.
Qed.

Lemma C5_sample_node_keeps_john :
  heap (Agent.sample_node (host := ScriptHost) 0 (one_record (VStr "John"))).1 !! 0
  = Some {[ "message" := VStr "John" ]}.
Proof.
  destruct (C5_sample_node_keeps_input (host := ScriptHost)
              (one_record (VStr "John")) 0 {[ "message" := VStr "John" ]}
              eq_refl) as [Ha _].
  exact Ha.
Defined.

Lemma C10_top_sample_node_missing_key :
  Top.sample_node 0 empty_record = (empty_record, Raise (KeyError "message")).
Proof.
  destruct (C10_top_sample_node_raises_key_error (host := ScriptHost)
              empty_record 0 ∅ eq_refl eq_refl) as [Ha _].
  exact Ha.
Defined.

(** ** More on the transformer *)

Section TransformerEffects.
Context {host : Host}.

Lemma agent_sample_node_cases (state : ref) (w : world) :
  (exists e0, Agent.sample_node state w
              = (logged ERROR ("Error processing state in sample_node: "
                               +:+ str_exn e0) w,
                 Raise (ProcessingError e0)))
  \/ (exists out, Agent.sample_node state w = new_dict out w).
Proof.
  rewrite agent_sample_node_try.
  destruct (top_sample_node_store state w) as [[e ->] | (out & _ & ->)].
  - left. exists e. reflexivity.
  - right. exists out. reflexivity.
Qed.

Lemma substring_all (s : string) : substring 0 (String.length s) s = s.
Proof.
  induction s as [|c s IH]; simpl; [reflexivity | rewrite IH; reflexivity].
Qed.

Lemma prefix_empty (s : string) : String.prefix EmptyString s = true.
Proof. destruct s; reflexivity. Qed.

(** X1: whatever the input, a call of the transformer of the agent
    module has one of two disjoint effects: a call that returns adds
    exactly one record to the store and writes nothing; a call that
    raises adds no record, writes exactly one error-level line and
    raises a [RuntimeError] with a cause, never the bare lookup or type
    error. *)
Theorem X1_sample_node_effects (state : ref) (w : world) :
  match Agent.sample_node state w with
  | (w', Return r) =>
      stdout w' = stdout w
      /\ r = length (heap w)
      /\ exists out, heap w' = heap w ++ [out]
  | (w', Raise e) =>
      heap w' = heap w
      /\ class_name e = "RuntimeError"
      /\ exists e0,
           cause e = Some e0
           /\ stdout w'
              = stdout w
                ++ [Logged module_name ERROR
                      ("Error processing state in sample_node: "
                       +:+ str_exn e0)]
  end.
Proof.
  destruct (agent_sample_node_cases state w) as [[e0 ->] | [out ->]].
  - split; [reflexivity|]. split; [reflexivity|].
    exists e0. split; reflexivity.
  - cbn. split; [reflexivity|]. split; [reflexivity|].
    exists out. reflexivity.
Qed.

(** X2: the transformer is not idempotent: called on the record it
    returned, it prefixes once more, so two calls in a row turn the
    message [m] into the greeting twice followed by [m]; the store
    gains the two records and nothing is written. *)
Theorem X2_sample_node_twice (w : world) (state : ref) (d : dict) (m : string) :
  heap w !! state = Some d ->
  d !! "message" = Some (VStr m) ->
  (r ← Agent.sample_node state; Agent.sample_node r) w
  = (World (heap w
            ++ [{[ "message" := VStr ("Welcome to my agent! " +:+ m) ]};
                {[ "message" :=
                     VStr ("Welcome to my agent! Welcome to my agent! " +:+ m) ]}])
       (stdout w),
     Return (length (heap w) + 1)).
Proof.
  intros Hr Hk. unfold mbind, M_bind.
  rewrite (agent_sample_node_text w state d m Hr Hk).
  unfold new_dict at 1. cbv beta iota.
  rewrite (agent_sample_node_text _ (length (heap w))
             {[ "message" := VStr ("Welcome to my agent! " +:+ m) ]}
             ("Welcome to my agent! " +:+ m))
    by (cbn [heap]; first [apply lookup_snoc_last | apply lookup_singleton_eq]).
  unfold new_dict. cbn [heap stdout].
  rewrite <- !app_assoc, !length_app. reflexivity.
Qed.

(** X3: the text a call returns is the 21 characters of the greeting
    followed by the input text: it is 21 characters longer than the
    input, starts with the greeting, and the input is read back by
    dropping the first 21 characters. *)
Theorem X3_output_text_shape (w : world) (state : ref) (d : dict) (m : string) :
  heap w !! state = Some d ->
  d !! "message" = Some (VStr m) ->
  exists out,
    result_of (Agent.sample_node state w) = Some {[ "message" := VStr out ]}
    /\ result_of (Top.sample_node state w) = Some {[ "message" := VStr out ]}
    /\ String.length out = 21 + String.length m
    /\ String.prefix "Welcome to my agent! " out = true
    /\ substring 21 (String.length m) out = m.
Proof.
  intros Hr Hk. exists ("Welcome to my agent! " +:+ m).
  split; [|split; [|split; [|split]]].
  - rewrite (agent_sample_node_text w state d m Hr Hk). apply new_dict_lookup.
  - rewrite (top_sample_node_text w state d m Hr Hk). apply new_dict_lookup.
  - reflexivity.
  - cbn. apply prefix_empty.
  - cbn. apply substring_all.
Qed.

End TransformerEffects.

(** ** Failures on the way through [run_agent] and [main] *)

Section Failures.
Context {host : Host}.

Lemma last_snoc_line (l : list line) (x : line) : last (l ++ [x]) = Some x.
Proof. apply last_snoc. Qed.

Lemma run_agent_real {lib : Lib} (m : string) (w : world) :
  Agent.run_agent false m w
  = match Agent.create_workflow
            (World (heap w ++ [{[ "message" := VStr m ]}]) (stdout w)) with
    | (w1, Return graph) => invoke graph (length (heap w)) w1
    | (w1, Raise e) => (w1, Raise e)
    end.
Proof.
  unfold Agent.run_agent, mbind, M_bind, new_dict. cbv beta iota.
  destruct (Agent.create_workflow _) as [w1 [graph|e]]; [|reflexivity].
  destruct (invoke graph (length (heap w)) w1) as [w2 [r|e]]; reflexivity.
Qed.

Lemma main_with_raise {lib : Lib} (m : string) (w w' : world) (e : exn) :
  Agent.run_agent false m w = (w', Raise e) ->
  Agent.main_with {| Agent.dry_run := false; Agent.message := m |} w
  = (logged ERROR ("Failed to run agent: " +:+ str_exn e) w', 1).
Proof.
  intros Hrun. rewrite main_with_try.
  unfold Agent.main_try, mbind, M_bind. cbn [Agent.dry_run Agent.message].
  rewrite Hrun. reflexivity.
Qed.

(** X4: when the library fails with [e] while the workflow is built,
    [run_agent] outside dry-run mode raises the wrapping error without
    invoking anything, and [main] exits with status 1 after exactly two
    error-level lines: the one of [create_workflow] and then its own,
    whose text contains the text of the wrapping error. *)
Theorem X4_construction_failure_two_lines
  (lib : Lib) (m : string) (w w' : world) (e : exn) :
  Agent.build_workflow
    (World (heap w ++ [{[ "message" := VStr m ]}]) (stdout w))
  = (w', Raise e) ->
  Agent.run_agent false m w
  = (logged ERROR ("Failed to create workflow: " +:+ str_exn e) w',
     Raise (WorkflowConstructionError e))
  /\ Agent.main_with {| Agent.dry_run := false; Agent.message := m |} w
     = (World (heap w')
          (stdout w'
           ++ [Logged module_name ERROR
                 ("Failed to create workflow: " +:+ str_exn e);
               Logged module_name ERROR
                 ("Failed to run agent: Workflow creation failed: "
                  +:+ str_exn e)]),
        1).
Proof.
  intros Hbuild.
  assert (Agent.run_agent false m w
          = (logged ERROR ("Failed to create workflow: " +:+ str_exn e) w',
             Raise (WorkflowConstructionError e))) as Hrun.
  { rewrite run_agent_real, create_workflow_try, Hbuild. reflexivity. }
  split; [exact Hrun|].
  rewrite (main_with_raise m w _ _ Hrun).
  unfold logged. cbn [heap stdout str_exn WorkflowConstructionError].
  rewrite <- app_assoc. reflexivity.
Qed.

(** X5: [run_agent] does not wrap a failure of the invocation: when the
    workflow is built and invoking it raises [e], [run_agent] raises
    [e] itself and writes nothing of its own; [main] then writes one
    error-level line with the text of [e] and exits with status 1. *)
Theorem X5_invocation_failure_unwrapped
  (lib : Lib) (m : string) (w w1 w2 : world) (graph : compiled) (e : exn) :
  Agent.build_workflow
    (World (heap w ++ [{[ "message" := VStr m ]}]) (stdout w))
  = (w1, Return graph) ->
  invoke graph (length (heap w)) w1 = (w2, Raise e) ->
  Agent.run_agent false m w = (w2, Raise e)
  /\ Agent.main_with {| Agent.dry_run := false; Agent.message := m |} w
     = (logged ERROR ("Failed to run agent: " +:+ str_exn e) w2, 1).
Proof.
  intros Hbuild Hinvoke.
  assert (Agent.run_agent false m w = (w2, Raise e)) as Hrun.
  { rewrite run_agent_real, create_workflow_try, Hbuild. exact Hinvoke. }
  split; [exact Hrun | exact (main_with_raise m w _ _ Hrun)].
Qed.

(** X6: whatever the library and the options, [main] ends in one of
    three ways and never fails silently.  Outside dry-run mode, when
    [run_agent] returns a record, the last line on standard output is
    the printed [str] of that very record and the status is 0; in
    dry-run mode the status is 0 and [main] adds nothing to what
    [run_agent] wrote; otherwise the statements under [try:] raised
    some [e], the last line is the error-level line with the text of
    [e] and the status is 1. *)
Theorem X6_main_status_and_last_line
  (lib : Lib) (args : Agent.Namespace) (w : world) :
  (exists w1 r d,
     Agent.dry_run args = false
     /\ Agent.run_agent false (Agent.message args) w = (w1, Return r)
     /\ heap w1 !! r = Some d
     /\ Agent.main_with args w
        = (World (heap w1) (stdout w1 ++ [Printed (repr_dict d)]), 0)
     /\ last (stdout (Agent.main_with args w).1)
        = Some (Printed (repr_dict d)))
  \/ (Agent.dry_run args = true
      /\ Agent.main_with args w
         = ((Agent.run_agent true (Agent.message args) w).1, 0))
  \/ (exists w1 e,
        Agent.main_try args w = (w1, Raise e)
        /\ Agent.main_with args w
           = (World (heap w1)
                (stdout w1
                 ++ [Logged module_name ERROR
                       ("Failed to run agent: " +:+ str_exn e)]),
              1)
        /\ last (stdout (Agent.main_with args w).1)
           = Some (Logged module_name ERROR
                     ("Failed to run agent: " +:+ str_exn e))).
Proof.
  destruct args as [dry m]. cbn [Agent.dry_run Agent.message].
  destruct dry.
  - right. left. split; [reflexivity | apply main_with_dry].
  - rewrite main_with_try. unfold Agent.main_try, mbind, M_bind.
    cbn [Agent.dry_run Agent.message negb].
    destruct (Agent.run_agent false m w) as [w1 [r|e]].
    + unfold print, str_obj, deref, mbind, M_bind.
      destruct (heap w1 !! r) as [d|] eqn:Hr.
      * left. exists w1, r, d.
        split; [reflexivity|]. split; [reflexivity|]. split; [exact Hr|].
        split; [reflexivity | apply last_snoc_line].
      * right. right. do 2 eexists.
        split; [reflexivity|]. split; [reflexivity | apply last_snoc_line].
    + right. right. exists w1, e.
      split; [reflexivity|]. split; [reflexivity | apply last_snoc_line].
Qed.

(** X7: outside dry-run mode, for every message [X] of the parsed
    options, also one that starts with a dash, the run through the
    workflow prints exactly one line, the record
    [{'message': 'Welcome to my agent! X'}], writes no log line, and
    exits with status 0. *)
Theorem X7_main_prints_record_for_message (X : string) (w : world) :
  Agent.main_with (lib := PathLib)
    {| Agent.dry_run := false; Agent.message := X |} w
  = (World (heap w
            ++ [{[ "message" := VStr X ]};
                {[ "message" := VStr ("Welcome to my agent! " +:+ X) ]}])
       (stdout w
        ++ [Printed
              ("{" +:+ repr_str "message" +:+ ": "
               +:+ repr_str ("Welcome to my agent! " +:+ X) +:+ "}")]),
     0)
  /\ Agent.main_with (host := ScriptHost) (lib := PathLib)
       {| Agent.dry_run := false; Agent.message := "-5" |} fresh
     = (World [{[ "message" := VStr "-5" ]};
               {[ "message" := VStr "Welcome to my agent! -5" ]}]
          [Printed "{'message': 'Welcome to my agent! -5'}"],
        0).
Proof.
  split; [|reflexivity].
  rewrite main_with_try, main_try_path. rewrite repr_dict_text. reflexivity.
Qed.

(** X8: the script block of [workers/run.py] and the command line of
    the agent module without options do the same: both leave the same
    store and the same single printed line; the script block returns
    and the command line exits with status 0. *)
Theorem X8_script_block_agrees_with_main (w : world) :
  Top.main (lib := PathLib) w
  = (World (heap w
            ++ [{[ "message" := VStr "Mehrnoosh" ]};
                {[ "message" := VStr "Welcome to my agent! Mehrnoosh" ]}])
       (stdout w
        ++ [Printed
              (repr_dict
                 {[ "message" := VStr "Welcome to my agent! Mehrnoosh" ]})]),
     Return tt)
  /\ Agent.main (lib := PathLib) [] w
     = Some ((Top.main (lib := PathLib) w).1, 0).
Proof.
  assert (Top.main (lib := PathLib) w
          = (World (heap w
                    ++ [{[ "message" := VStr "Mehrnoosh" ]};
                        {[ "message" := VStr "Welcome to my agent! Mehrnoosh" ]}])
               (stdout w
                ++ [Printed
                      (repr_dict
                         {[ "message" := VStr "Welcome to my agent! Mehrnoosh" ]})]),
             Return tt)) as Htop.
  { unfold Top.main, mbind, M_bind. rewrite path_build_top.
    unfold new_dict. cbv beta iota.
    change (@invoke PathLib ?g ?s ?w1)
      with (walk g recursion_limit START s w1).
    rewrite one_node_invoke.
    rewrite (top_sample_node_text _ (length (heap w))
               {[ "message" := VStr "Mehrnoosh" ]} "Mehrnoosh")
      by (cbn [heap]; first [apply lookup_snoc_last | apply lookup_singleton_eq]).
    unfold new_dict. cbn [heap stdout]. unfold print, mbind, M_bind.
    rewrite (str_obj_at _ _
               {[ "message" := VStr "Welcome to my agent! Mehrnoosh" ]})
      by (cbn [heap]; apply lookup_snoc_last).
    unfold write. cbn [heap stdout].
    rewrite <- !app_assoc. reflexivity. }
  split; [exact Htop|].
  rewrite Htop. unfold Agent.main.
  change (Agent.parse_args [])
    with (Some {| Agent.dry_run := false; Agent.message := "Mehrnoosh" |}).
  cbn [mbind option_bind]. rewrite main_with_try, main_try_path. reflexivity.
Qed.

End Failures.

(** ** The further properties on sample inputs *)

Lemma X2_sample_node_twice_john :
  (r ← Agent.sample_node (host := ScriptHost) 0;
   Agent.sample_node (host := ScriptHost) r) (one_record (VStr "John"))
  = (World [{[ "message" := VStr "John" ]};
            {[ "message" := VStr "Welcome to my agent! John" ]};
            {[ "message" :=
                 VStr "Welcome to my agent! Welcome to my agent! John" ]}] [],
     Return 2).
Proof.
  exact (X2_sample_node_twice (host := ScriptHost)
           (one_record (VStr "John")) 0 {[ "message" := VStr "John" ]}
           "John" eq_refl eq_refl).
Defined.

Lemma X3_output_text_shape_long :
  exists out,
    result_of (Agent.sample_node (host := ScriptHost) 0
                 (one_record (VStr "AAAAAAAAAA")))
    = Some {[ "message" := VStr out ]}
    /\ result_of (Top.sample_node 0 (one_record (VStr "AAAAAAAAAA")))
       = Some {[ "message" := VStr out ]}
    /\ String.length out = 31
    /\ String.prefix "Welcome to my agent! " out = true
    /\ substring 21 10 out = "AAAAAAAAAA".
Proof.
  exact (X3_output_text_shape (host := ScriptHost)
           (one_record (VStr "AAAAAAAAAA")) 0
           {[ "message" := VStr "AAAAAAAAAA" ]} "AAAAAAAAAA"
           eq_refl eq_refl).
Defined.

Lemma X4_rejected_definition_two_lines :
  Agent.main_with (host := ScriptHost) (lib := RejectingLib)
    {| Agent.dry_run := false; Agent.message := "Bob" |} fresh
  = (World [{[ "message" := VStr "Bob" ]}]
       [Logged "__main__" ERROR
          "Failed to create workflow: Invalid graph definition";
        Logged "__main__" ERROR
          "Failed to run agent: Workflow creation failed: Invalid graph definition"],
     1).
Proof.
  destruct (X4_construction_failure_two_lines (host := ScriptHost)
              RejectingLib "Bob" fresh
              (World [{[ "message" := VStr "Bob" ]}] [])
              (ValueError "Invalid graph definition") eq_refl) as [_ Hb].
  exact Hb.
Defined.

Lemma X5_broken_invoke_one_line :
  Agent.main_with (host := ScriptHost) (lib := BrokenInvokeLib)
    {| Agent.dry_run := false; Agent.message := "Bob" |} fresh
  = (World [{[ "message" := VStr "Bob" ]}]
       [Logged "__main__" ERROR "Failed to run agent: Invocation failed"],
     1).
Proof.
  destruct (X5_invocation_failure_unwrapped (host := ScriptHost)
              BrokenInvokeLib "Bob" fresh
              (World [{[ "message" := VStr "Bob" ]}] [])
              (World [{[ "message" := VStr "Bob" ]}] [])
              (MkDefinition ["message"]
                 (<[ "sample" := Agent.sample_node (host := ScriptHost) ]> ∅)
                 [(START, "sample"); ("sample", END)])
              (ValueError "Invocation failed") eq_refl eq_refl) as [_ Hb].
  exact Hb.
Defined.

(** ** The store across a run, and the script block on failure *)

Section StoreAndScript.
Context {host : Host}.

(** X10: [run_agent] changes no record that exists when it is called:
    in a dry run, whatever the library, and in a run through the
    workflow, every record of the store is after the call what it was
    before, and the record returned is a new object. *)
Theorem X10_run_agent_keeps_store
  (lib : Lib) (m : string) (w : world) (r : ref) (x : dict) :
  heap w !! r = Some x ->
  heap (Agent.run_agent (lib := lib) true m w).1 !! r = Some x
  /\ heap (Agent.run_agent (lib := PathLib) false m w).1 !! r = Some x
  /\ exists r1 r2,
       (Agent.run_agent (lib := lib) true m w).2 = Return r1
       /\ (Agent.run_agent (lib := PathLib) false m w).2 = Return r2
       /\ heap w !! r1 = None
       /\ heap w !! r2 = None.
Proof.
  intros Hr. rewrite run_agent_dry, run_agent_path. cbn [fst snd heap].
  split; [apply lookup_app_l_Some, Hr|].
  split; [apply lookup_app_l_Some, Hr|].
  do 2 eexists. split; [reflexivity|]. split; [reflexivity|].
  split; apply lookup_ge_None; lia.
Qed.

(** X11: the script block of [workers/run.py] handles no failure: when
    the library fails with [e] while the graph is built, the block
    raises [e] itself, unwrapped, builds no record and prints nothing;
    when the graph is built and invoking it raises [e], the block
    raises [e] and prints nothing. *)
Theorem X11_script_block_propagates_failure (lib : Lib) (w w' : world) (e : exn) :
  Top.graph w = (w', Raise e)
  \/ (exists graph w1,
        Top.graph w = (w1, Return graph)
        /\ invoke graph (length (heap w1))
             (World (heap w1 ++ [{[ "message" := VStr "Mehrnoosh" ]}])
                (stdout w1))
           = (w', Raise e)) ->
  Top.main w = (w', Raise e).
Proof.
  unfold Top.main, mbind, M_bind.
  intros [-> | (graph & w1 & -> & Hinvoke)]; [reflexivity|].
  unfold new_dict. cbv beta iota. rewrite Hinvoke. reflexivity.
Qed.

End StoreAndScript.

Lemma X10_run_agent_keeps_john :
  heap (Agent.run_agent (host := ScriptHost) (lib := RejectingLib) true "X"
          (one_record (VStr "John"))).1 !! 0
  = Some {[ "message" := VStr "John" ]}.
Proof.
  destruct (X10_run_agent_keeps_store (host := ScriptHost) RejectingLib "X"
              (one_record (VStr "John")) 0 {[ "message" := VStr "John" ]}
              eq_refl) as [Ha _].
  exact Ha.
Defined.

Lemma X11_script_block_rejected_definition :
  Top.main (host := ScriptHost) (lib := RejectingLib) fresh
  = (fresh, Raise (ValueError "Invalid graph definition")).
Proof.
  exact (X11_script_block_propagates_failure (host := ScriptHost)
           RejectingLib fresh fresh (ValueError "Invalid graph definition")
           (or_introl eq_refl)).
Defined.
